(** * Web trader alerts handler: a shallow embedding of
    [src/monitor/web/js/alerts.js] and the properties of its alert store,
    formatting rules and removal/refresh callbacks.

    JavaScript objects used as dictionaries ([window.markets],
    [window.active_alerts], [window.alerts]) are finite maps keyed by
    strings; numbers that carry prices are binary64 floats, integer
    identifiers and signs are [Z]. The effects of the handlers (rows
    prepended to the tables, calls of [notify] and [audio_notify], requests
    handed to [$.ajax]) are logged in the [window] record that every handler
    threads. *)

From Stdlib Require Import ZArith QArith Qabs String Ascii List DecimalString Lia.
From Stdlib Require Import DecimalPos DecimalZ.
From Stdlib Require Import Floats.PrimFloat Floats.FloatOps Floats.SpecFloat.
From stdpp Require Import gmap strings.

Local Open Scope string_scope.
Local Open Scope Z_scope.

(** ** The JavaScript primitives the file relies on *)

Module Js.

(** [String(n)] / [+] concatenation of an integer number: its decimal
    digits. This is what JavaScript prints for the integers it holds
    exactly, those of magnitude up to 2^53 ([safe_integer] below); above,
    it prints the shortest digits that read back, and an exponent form from
    1e21, neither of which is represented. *)
Definition number_to_string (n : Z) : string :=
  NilZero.string_of_int (Z.to_int n).

(** [s.split(sep)] for a one-character separator. *)
Fixpoint split (sep : ascii) (s : string) : list string :=
  match s with
  | EmptyString => [EmptyString]
  | String c rest =>
      if Ascii.eqb c sep then EmptyString :: split sep rest
      else match split sep rest with
           | [] => [String c EmptyString]
           | part :: parts => String c part :: parts
           end
  end.

(** White space skipped by [parseInt]: the characters of StrWhiteSpaceChar
    among the code units below 256 (tab to carriage return, space, no-break
    space). *)
Definition is_white_space (c : ascii) : bool :=
  let n := nat_of_ascii c in
  ((9 <=? n)%nat && (n <=? 13)%nat) || (n =? 32)%nat || (n =? 160)%nat.

Fixpoint trim_start (s : string) : string :=
  match s with
  | String c rest => if is_white_space c then trim_start rest else s
  | EmptyString => EmptyString
  end.

Definition digit_value (c : ascii) : option Z :=
  let n := Z.of_nat (nat_of_ascii c) in
  if (48 <=? n) && (n <=? 57) then Some (n - 48)
  else if (97 <=? n) && (n <=? 122) then Some (n - 87)
  else if (65 <=? n) && (n <=? 90) then Some (n - 55)
  else None.

(** The longest prefix of radix-[radix] digits, as an integer; [acc] is
    [None] until a first digit has been read. *)
Fixpoint read_digits (radix : Z) (s : string) (acc : option Z) : option Z :=
  match s with
  | EmptyString => acc
  | String c rest =>
      match digit_value c with
      | Some d =>
          if d <? radix
          then read_digits radix rest (Some (radix * default 0 acc + d))
          else acc
      | None => acc
      end
  end.

(** An integer-valued number, or one of the values that are no integer. *)
Inductive number :=
| NaN
| Infinity (negative : bool)
| Int (n : Z).

(** The integers a number holds exactly whatever their value. *)
Definition safe_integer (n : Z) : bool := Z.abs n <=? 2 ^ 53.

(** The number for a mathematical integer: itself up to 2^53, above that
    the nearest multiple of the power of two that leaves 53 bits, the even
    one on a tie, and an infinity from 2^1024. *)
Definition to_binary64 (n : Z) : number :=
  if safe_integer n then Int n
  else
    let a := Z.abs n in
    let k := Z.log2 a - 52 in
    let q := a / 2 ^ k in
    let r := a mod 2 ^ k in
    let q' := if (2 ^ k <? 2 * r) || ((2 ^ k =? 2 * r) && Z.odd q)
              then q + 1 else q in
    if 2 ^ 1024 <=? q' * 2 ^ k then Infinity (n <? 0)
    else Int (Z.sgn n * (q' * 2 ^ k)).

(** [parseInt(s)] with no radix argument: leading white space, an optional
    sign, an optional [0x]/[0X] prefix, then the digits, whose integer is
    rounded to a number; no digit gives [NaN]. (Past the 20th decimal digit
    the language lets an implementation read zeros; the digits are read
    exactly here, as the engines in use do.) *)
Definition parseInt (s : string) : number :=
  let s := trim_start s in
  let '(sign, s) :=
    match s with
    | String "-" rest => (-1, rest)
    | String "+" rest => (1, rest)
    | _ => (1, s)
    end in
  let '(radix, s) :=
    match s with
    | String "0" (String "x" rest) => (16, rest)
    | String "0" (String "X" rest) => (16, rest)
    | _ => (10, s)
    end in
  match read_digits radix s None with
  | Some n => to_binary64 (sign * n)
  | None => NaN
  end.

(** Truthiness of a string and of a number as [parseInt] returns it. *)
Definition truthy_string (s : string) : bool :=
  match s with EmptyString => false | _ => true end.

Definition truthy_number (n : number) : bool :=
  match n with
  | NaN => false
  | Infinity _ => true
  | Int n => negb (n =? 0)
  end.

(** What [o[k]] finds in an object written as a literal and used as a
    dictionary: a property of its own, a property every object inherits
    from [Object.prototype] (a function, or the prototype itself: truthy,
    and without any of the fields of an entry), or nothing. *)
Inductive property (V : Type) :=
| Own (v : V)
| Inherited
| Undefined.
Arguments Own {V} v.
Arguments Inherited {V}.
Arguments Undefined {V}.

Definition object_prototype_keys : list string :=
  [ "constructor"; "hasOwnProperty"; "isPrototypeOf"; "propertyIsEnumerable";
    "toLocaleString"; "toString"; "valueOf"; "__proto__";
    "__defineGetter__"; "__defineSetter__"; "__lookupGetter__";
    "__lookupSetter__" ].

Definition get {V} (o : gmap string V) (k : string) : property V :=
  match o !! k with
  | Some v => Own v
  | None => if existsb (String.eqb k) object_prototype_keys then Inherited
            else Undefined
  end.

Definition truthy_property {V} (p : property V) : bool :=
  match p with Undefined => false | _ => true end.

(** The double quote. *)
Definition quote : string := String (ascii_of_nat 34) "".

(** Whether a string pasted between the double quotes of an attribute
    selector is matched as it stands: it holds no double quote (which would
    end the quoted value), no backslash (which starts an escape) and no
    control character. *)
Fixpoint plain_in_selector (s : string) : bool :=
  match s with
  | EmptyString => true
  | String c rest =>
      let n := nat_of_ascii c in
      (32 <=? n)%nat && negb (n =? 34)%nat && negb (n =? 92)%nat
        && negb (n =? 127)%nat && plain_in_selector rest
  end.

(** [x > 0] and [x < 0] for a property that may be [undefined]: the
    comparison with [undefined] (converted to [NaN]) is false. *)
Definition gt0 (x : option Z) : bool :=
  match x with Some n => 0 <? n | None => false end.

Definition lt0 (x : option Z) : bool :=
  match x with Some n => n <? 0 | None => false end.

Definition float_gt0 (x : option float) : bool :=
  match x with Some v => PrimFloat.ltb 0 v | None => false end.


(** The digits of [n] with a point before the last [f] of them
    (steps 9 and 10 of Number.prototype.toFixed). *)
Fixpoint zeros (k : nat) : string :=
  match k with O => "" | S k => String "0" (zeros k) end.

Definition with_point (f : nat) (n : Z) : string :=
  let m := number_to_string n in
  let k := String.length m in
  let m := if (k <=? f)%nat then zeros (f + 1 - k) +:+ m else m in
  let k := String.length m in
  if (f =? 0)%nat then m
  else substring 0 (k - f) m +:+ "." +:+ substring (k - f) f m.

(** [x.toFixed(f)]: the integer [n] for which [n / 10^f] is closest to
    [|x|], the larger one on a tie. [to_string] is Number::toString, which
    toFixed defers to for magnitudes of 1e21 and more. *)
Definition toFixed (to_string : float -> string) (f : nat) (x : float) : string :=
  match Prim2SF x with
  | S754_nan => "NaN"
  | S754_infinity s => if s then "-Infinity" else "Infinity"
  | S754_zero _ => with_point f 0
  | S754_finite s m e =>
      let scale := 10 ^ Z.of_nat f in
      let digits :=
        if (0 <=? e) && (10 ^ 21 <=? Z.pos m * 2 ^ e) then to_string (PrimFloat.abs x)
        else
          let n := if 0 <=? e then Z.pos m * 2 ^ e * scale
                   else (2 * Z.pos m * scale + 2 ^ (- e)) / (2 * 2 ^ (- e)) in
          with_point f n in
      (if s then "-" else "") +:+ digits
  end.

End Js.

(** ** Data model *)

(** An entry of [window.markets]. *)
Record market := {
  m_market_id : string;               (* market['market-id'] *)
  m_symbol : string                   (* market['symbol'] *)
}.

(** A fired signal, as the historical-alert endpoint and the push events
    carry it (an entry of [window.alerts]). *)
Record signal_alert := {
  s_id : Z;
  s_market_id : string;
  s_symbol : string;
  s_name : string;
  s_trigger : Z;
  s_timeframe : string;
  s_timestamp : float;
  s_last_price : float;
  s_reason : string;
  s_message : string
}.

(** A pending alert (an entry of [window.active_alerts]). A property the
    payload may leave out is an [option]. *)
Record active_alert := {
  a_id : Z;
  a_market_id : string;
  a_symbol : string;
  a_name : string;
  a_direction : Z;
  a_price_src : Z;
  a_price : float;
  a_cancellation : option float;
  a_cancellation_price : float;
  a_timeframe : string;
  a_created : float;
  a_timestamp : float;
  a_expiry : float;
  a_countdown : string;
  a_message : string
}.

(** The argument of [notify]. *)
Record notification := {
  n_message : string;
  n_title : string;
  n_type : string
}.

(** The body of the removal request, before [JSON.stringify]. *)
Record removal_data := {
  d_market_id : option string;        (* 'market-id', [None] when undefined *)
  d_alert_id : Js.number;             (* 'alert-id' *)
  d_action : string                   (* 'action' *)
}.

(** A call of [$.ajax]. *)
Record ajax_request := {
  r_type : string;
  r_url : string;
  r_authorization : string;
  r_session : string;
  r_data : option removal_data
}.

(** The global [server]. *)
Record server_info := {
  permissions : list string;
  auth_token : string;
  session : string
}.

(** What this file reads off the global binding [alert] (in a browser the
    built-in dialog function [window.alert]), where a function mentions
    [alert] without having a parameter or local of that name. *)
Record alert_binding := {
  g_direction : option Z;             (* alert.direction *)
  g_price_src : option Z              (* alert['price-src'] *)
}.

(** The dialog function of the browser has neither property. *)
Definition builtin_alert : alert_binding :=
  {| g_direction := None; g_price_src := None |}.

(** A row of [div.active-alert-list-entries tbody]. *)
Record active_alert_row := {
  ar_key : string;                    (* attribute active-alert-key *)
  ar_symbol : string;
  ar_timeframe : string;
  ar_condition : string;
  ar_cancellation : string;
  ar_remove_enabled : bool
}.

(** A row of [div.alert-list-entries tbody]. *)
Record alert_row := {
  sr_key : string;                    (* attribute alert-key *)
  sr_symbol : string;
  sr_long : bool;                     (* class trade-long, else trade-short *)
  sr_timeframe : string
}.

(** The page state the handlers read and write. *)
Record window := {
  markets : gmap string market;       (* the own properties of an object literal *)
  active_alerts : gmap string active_alert;
  alerts : gmap string signal_alert;
  window_alert : alert_binding;
  server : server_info;
  active_alert_rows : list active_alert_row;
  alert_rows : list alert_row;
  notified : list notification;       (* calls of notify, oldest first *)
  played : list string;               (* calls of audio_notify *)
  requested : list ajax_request       (* calls of $.ajax, oldest first *)
}.

Definition set_active_alerts (v : gmap string active_alert) (w : window) : window :=
  {| markets := markets w; active_alerts := v; alerts := alerts w;
     window_alert := window_alert w; server := server w;
     active_alert_rows := active_alert_rows w; alert_rows := alert_rows w;
     notified := notified w; played := played w; requested := requested w |}.

Definition set_alerts (v : gmap string signal_alert) (w : window) : window :=
  {| markets := markets w; active_alerts := active_alerts w; alerts := v;
     window_alert := window_alert w; server := server w;
     active_alert_rows := active_alert_rows w; alert_rows := alert_rows w;
     notified := notified w; played := played w; requested := requested w |}.

Definition prepend_active_alert_row (r : active_alert_row) (w : window) : window :=
  {| markets := markets w; active_alerts := active_alerts w; alerts := alerts w;
     window_alert := window_alert w; server := server w;
     active_alert_rows := r :: active_alert_rows w; alert_rows := alert_rows w;
     notified := notified w; played := played w; requested := requested w |}.

(** The rows whose [active-alert-key] is the key, taken out of the table. *)
Definition remove_active_alert_rows (key : string) (w : window) : window :=
  {| markets := markets w; active_alerts := active_alerts w; alerts := alerts w;
     window_alert := window_alert w; server := server w;
     active_alert_rows :=
       List.filter (fun r => negb (String.eqb (ar_key r) key)) (active_alert_rows w);
     alert_rows := alert_rows w;
     notified := notified w; played := played w; requested := requested w |}.

Definition prepend_alert_row (r : alert_row) (w : window) : window :=
  {| markets := markets w; active_alerts := active_alerts w; alerts := alerts w;
     window_alert := window_alert w; server := server w;
     active_alert_rows := active_alert_rows w; alert_rows := r :: alert_rows w;
     notified := notified w; played := played w; requested := requested w |}.

(** [notify(n)]. *)
Definition notify (n : notification) (w : window) : window :=
  {| markets := markets w; active_alerts := active_alerts w; alerts := alerts w;
     window_alert := window_alert w; server := server w;
     active_alert_rows := active_alert_rows w; alert_rows := alert_rows w;
     notified := notified w ++ [n]; played := played w; requested := requested w |}.

(** [audio_notify(cue)]. *)
Definition audio_notify (cue : string) (w : window) : window :=
  {| markets := markets w; active_alerts := active_alerts w; alerts := alerts w;
     window_alert := window_alert w; server := server w;
     active_alert_rows := active_alert_rows w; alert_rows := alert_rows w;
     notified := notified w; played := played w ++ [cue]; requested := requested w |}.

(** [$.ajax(r)]: the request leaves; its callbacks run later. *)
Definition ajax (r : ajax_request) (w : window) : window :=
  {| markets := markets w; active_alerts := active_alerts w; alerts := alerts w;
     window_alert := window_alert w; server := server w;
     active_alert_rows := active_alert_rows w; alert_rows := alert_rows w;
     notified := notified w; played := played w; requested := requested w ++ [r] |}.

(** The value a handler hands back to its caller. *)
Inductive returned := ReturnedFalse | ReturnedUndefined.

(** The JSON body of the answer to a removal request. *)
Record removal_response := {
  rr_error : bool;                    (* data.error *)
  rr_messages : list string           (* data.messages *)
}.

(** The jqXHR object a failed request passes to [fail]; jQuery gives it no
    [messages] property, which is the empty list here. *)
Record jqXHR := {
  x_messages : list string
}.

(** How a removal request ends. *)
Inductive removal_outcome :=
| Done (data : removal_response)
| Fail (data : jqXHR).

(** What [on_details_alert] puts into the details table: the two texts it
    computes, and the HTML source of the value cells it builds by string
    concatenation and hands to jQuery, which parses it as markup. *)
Record alert_details := {
  dt_condition : string;              (* condition_msg *)
  dt_cancellation_condition : string; (* cancellation_msg *)
  dt_price_cell : string;
  dt_condition_cell : string;
  dt_direction_cell : string;
  dt_cancellation_price_cell : string;
  dt_cancellation_condition_cell : string;
  dt_comment_cell : string
}.

(** How [on_details_alert] ends: it returns before filling the table, it
    fills it from an alert, or it fills it from a built-in property that
    every object has under the given key (not represented further). *)
Inductive details_outcome :=
| NoDetails
| Details (details : alert_details)
| BuiltinDetails.

(** ['<td class="data-value">' + inner + '</td>']. *)
Definition data_value (inner : string) : string :=
  "<td class=" +:+ Js.quote +:+ "data-value" +:+ Js.quote +:+ ">"
    +:+ inner +:+ "</td>".

(** ** The handlers *)

Section Alerts.

(** Collaborators defined outside this file. *)
Variable format_price : string -> float -> string.
Variable base_url : string.
Variable number_toString : float -> string.

Definition price_src_to_str (price_src : option Z) : string :=
  match price_src with
  | Some 0 => "bid"
  | Some 1 => "ask"
  | Some 2 => "mid"
  | _ => ""
  end.

(** In the two formatters the second test reads [alert.direction], not
    [alert_data.direction]: [alert] is no parameter of theirs and is
    looked up in the global scope. *)
Definition alert_name_format (alert : alert_binding) (alert_data : active_alert)
    (market_id price_src : string) : string :=
  let condition_msg := "-" in
  if String.eqb (a_name alert_data) "price-cross" then
    if 0 <? a_direction alert_data then
      "if " +:+ price_src +:+ " price goes above "
        +:+ format_price market_id (a_price alert_data)
    else if Js.lt0 (g_direction alert) then
      "if " +:+ price_src +:+ " price goes below "
        +:+ format_price market_id (a_price alert_data)
    else condition_msg
  else condition_msg.

Definition alert_cancellation_format (alert : alert_binding) (alert_data : active_alert)
    (market_id price_src : string) : string :=
  let cancellation_msg := "never" in
  if Js.float_gt0 (a_cancellation alert_data) then
    if 0 <? a_direction alert_data then
      "if " +:+ price_src +:+ " price < "
        +:+ format_price market_id (default 0%float (a_cancellation alert_data))
    else if Js.lt0 (g_direction alert) then
      "if " +:+ price_src +:+ " price > "
        +:+ format_price market_id (default 0%float (a_cancellation alert_data))
    else cancellation_msg
  else cancellation_msg.

(** The cleanup of [on_strategy_signal_alert]: above 200 entries it walks
    the keys, and its loop body is empty. *)
Definition cleanup_above_200 (w : window) : window :=
  if (200 <? Z.of_nat (size (alerts w)))
  then fold_left (fun w' (alert_key : string) => w') (map_to_list (alerts w)).*1 w
  else w.

Definition on_strategy_signal_alert (market_id : string) (alert_id : Z)
    (timestamp : float) (alert : signal_alert) (do_notify : bool)
    (w : window) : window :=
  let key := market_id +:+ ":" +:+ Js.number_to_string (s_id alert) in
  let symbol := match Js.get (markets w) market_id with
                | Js.Own m => m_symbol m
                | Js.Inherited => ""
                | Js.Undefined => market_id
                end in
  let timeframe := if String.eqb (s_timeframe alert) "t" then "trade/tick"
                   else s_timeframe alert in
  let w := prepend_alert_row
             {| sr_key := key; sr_symbol := symbol;
                sr_long := 0 <? s_trigger alert; sr_timeframe := timeframe |} w in
  let w := if do_notify then
             let message := s_name alert +:+ " " +:+ s_reason alert +:+ " "
                              +:+ s_symbol alert +:+ " " +:+ s_message alert in
             audio_notify "alert"
               (notify {| n_message := message; n_title := "Strategy Alert";
                          n_type := "info" |} w)
           else w in
  let w := set_alerts (<[key := alert]> (alerts w)) w in
  cleanup_above_200 w.

Definition on_strategy_create_alert (market_id : string) (alert_id : Z)
    (timestamp : float) (alert : active_alert) (do_notify : bool)
    (w : window) : window :=
  let key := market_id +:+ ":" +:+ Js.number_to_string alert_id in
  let price_src := price_src_to_str (Some (a_price_src alert)) in
  let condition_msg := alert_name_format (window_alert w) alert market_id price_src in
  let cancellation_msg :=
    alert_cancellation_format (window_alert w) alert market_id price_src in
  let symbol := match Js.get (markets w) market_id with
                | Js.Own m => m_symbol m
                | Js.Inherited => ""
                | Js.Undefined => market_id
                end in
  let timeframe := if Js.truthy_string (a_timeframe alert) then a_timeframe alert
                   else "trade/tick" in
  let w := prepend_active_alert_row
             {| ar_key := key; ar_symbol := symbol; ar_timeframe := timeframe;
                ar_condition := condition_msg; ar_cancellation := cancellation_msg;
                ar_remove_enabled :=
                  bool_decide ("strategy-trader" ∈ permissions (server w)) |} w in
  let w := if do_notify then
             let message := a_name alert +:+ " " +:+ condition_msg +:+ " "
                              +:+ a_symbol alert +:+ " " +:+ a_message alert in
             notify {| n_message := message; n_title := "Strategy Alert Created";
                       n_type := "info" |} w
           else w in
  set_active_alerts (<[key := alert]> (active_alerts w)) w.

(** The [done] and [fail] callbacks of the removal request. [for (msg in
    data.messages)] visits the indices of the list in order. *)
Definition on_remove_alert_done (data : removal_response) (w : window) : window :=
  if rr_error data then
    fold_left (fun w' msg =>
                 notify {| n_message := msg; n_title := "Remove Alert";
                           n_type := "error" |} w')
              (rr_messages data) w
  else notify {| n_message := "Success"; n_title := "Remove Alert";
                 n_type := "success" |} w.

Definition on_remove_alert_fail (data : jqXHR) (w : window) : window :=
  fold_left (fun w' (msg : nat) =>
               notify {| n_message := Js.number_to_string (Z.of_nat msg);
                         n_title := "Remove Alert"; n_type := "error" |} w')
            (seq 0 (length (x_messages data))) w.

(** [on_remove_alert], from the key [retrieve_alert_key(elt)] gave: the
    value handed back and the page after the call. The guard
    [market_id && market && alert_id] holds when the market part is not
    empty, [window.markets[market_id]] finds something, be it inherited,
    and the id is neither NaN nor 0. *)
Definition on_remove_alert (key : string) (w : window) : returned * window :=
  let parts := Js.split ":" key in
  match parts with
  | [market_id; part1] =>
      let alert_id := Js.parseInt part1 in
      let endpoint := "strategy/alert" in
      let url := base_url +:+ "/" +:+ endpoint in
      let market := Js.get (markets w) market_id in
      if Js.truthy_string market_id && Js.truthy_property market
           && Js.truthy_number alert_id then
        let data := {| d_market_id := match market with
                                      | Js.Own m => Some (m_market_id m)
                                      | _ => None
                                      end;
                       d_alert_id := alert_id;
                       d_action := "del-alert" |} in
        (ReturnedUndefined,
         ajax {| r_type := "DELETE"; r_url := url;
                 r_authorization := "Bearer " +:+ auth_token (server w);
                 r_session := session (server w);
                 r_data := Some data |} w)
      else (ReturnedUndefined, w)
  | _ => (ReturnedFalse, w)
  end.

(** A removal from the click to the end of its request: the callback of
    the outcome runs when the click has added a request to the log. *)
Definition remove_alert_round (key : string) (outcome : removal_outcome)
    (w : window) : returned * window :=
  let '(r, w') := on_remove_alert key w in
  if (length (requested w) <? length (requested w'))%nat then
    match outcome with
    | Done data => (r, on_remove_alert_done data w')
    | Fail data => (r, on_remove_alert_fail data w')
    end
  else (r, w').

(** [on_strategy_remove_alert]. The rows are found with the selector
    [tr.active-alert[active-alert-key="KEY"]], the key pasted in: for a key
    that is plain in a selector these are the rows whose attribute is the
    key. For another key the selector may fail to parse (the entry is then
    not deleted either) or name other rows; this is [None], not followed
    further. *)
Definition on_strategy_remove_alert (market_id : string) (timestamp : float)
    (alert_id : Z) (w : window) : option window :=
  let key := market_id +:+ ":" +:+ Js.number_to_string alert_id in
  if Js.plain_in_selector key then
    let w := remove_active_alert_rows key w in
    Some (set_active_alerts (delete key (active_alerts w)) w)
  else None.

(** [window.fetch_alerts]: the two requests it starts, and the callbacks
    of each. [data] is [result['data']], [None] when absent or null; the
    callbacks name it [alerts]. *)
Definition fetch_alerts (w : window) : window :=
  let endpoint1 := "strategy/alert" in
  let url1 := base_url +:+ "/" +:+ endpoint1 in
  let w := ajax {| r_type := "GET"; r_url := url1;
                   r_authorization := "Bearer " +:+ auth_token (server w);
                   r_session := session (server w); r_data := None |} w in
  let endpoint2 := "strategy/historical-alert" in
  let url2 := base_url +:+ "/" +:+ endpoint2 in
  ajax {| r_type := "GET"; r_url := url2;
          r_authorization := "Bearer " +:+ auth_token (server w);
          r_session := session (server w); r_data := None |} w.

Definition fetch_alerts_active_done (data : option (list active_alert))
    (w : window) : window :=
  let w := set_active_alerts ∅ w in
  match data with
  | None => w
  | Some result_data =>
      fold_left
        (fun w' alert =>
           let w' := set_active_alerts
                       (<[a_market_id alert +:+ ":" +:+ Js.number_to_string (a_id alert)
                          := alert]> (active_alerts w')) w' in
           on_strategy_create_alert (a_market_id alert) (a_id alert)
             (a_timestamp alert) alert false w')
        result_data w
  end.

Definition fetch_alerts_active_fail (w : window) : window :=
  notify {| n_message := "Unable to obtains actives alerts !";
            n_title := "fetching" +:+ String (ascii_of_nat 34) "";
            n_type := "error" |} w.

Definition fetch_alerts_historical_done (data : option (list signal_alert))
    (w : window) : window :=
  let w := set_alerts ∅ w in
  match data with
  | None => w
  | Some result_data =>
      fold_left
        (fun w' alert =>
           let w' := set_alerts
                       (<[s_market_id alert +:+ ":" +:+ Js.number_to_string (s_id alert)
                          := alert]> (alerts w')) w' in
           on_strategy_signal_alert (s_market_id alert) (s_id alert)
             (s_timestamp alert) alert false w')
        result_data w
  end.

Definition fetch_alerts_historical_fail (w : window) : window :=
  notify {| n_message := "Unable to obtains historical alerts !";
            n_title := "fetching" +:+ String (ascii_of_nat 34) "";
            n_type := "error" |} w.

(** Modelled from the spec: [compute_price_pct] is defined in another
    script of the page; section 4.1 gives it as
    (cancellationPrice/entryPrice - 1) * direction_sign, in floats. *)
Definition compute_price_pct (cancellation_price price direction : float) : float :=
  ((cancellation_price / price - 1) * direction)%float.

(** [direction == "long" || direction == 1 ? 1 : -1] for a numeric
    direction, which never equals the string "long". *)
Definition direction_sign (direction : Z) : float :=
  if false || (direction =? 1) then 1%float else (-1)%float.

(** The percentage [on_details_alert] prints after the cancellation price. *)
Definition cancellation_price_pct (active_alert : active_alert) : string :=
  let cancellation_price_rate :=
    compute_price_pct (a_cancellation_price active_alert) (a_price active_alert)
      (direction_sign (a_direction active_alert)) in
  Js.toFixed number_toString 2 (cancellation_price_rate * 100)%float +:+ "%".

Definition on_details_alert (key : string) (w : window) : details_outcome :=
  match Js.get (active_alerts w) key with
  | Js.Undefined => NoDetails
  | Js.Inherited => BuiltinDetails
  | Js.Own active_alert =>
      let market_id := a_market_id active_alert in
      let price_src := price_src_to_str (g_price_src (window_alert w)) in
      let condition_msg :=
        alert_name_format (window_alert w) active_alert market_id price_src in
      let cancellation_msg :=
        alert_cancellation_format (window_alert w) active_alert market_id price_src in
      Details
        {| dt_condition := condition_msg;
           dt_cancellation_condition := cancellation_msg;
           dt_price_cell :=
             data_value (format_price market_id (a_price active_alert));
           dt_condition_cell := data_value condition_msg;
           dt_direction_cell :=
             if a_direction active_alert =? 1 then
               data_value ("<span class=" +:+ Js.quote
                             +:+ "alert-direction fas alert-up fa-arrow-up"
                             +:+ Js.quote +:+ "></span>")
             else if a_direction active_alert =? -1 then
               data_value ("<span class=" +:+ Js.quote
                             +:+ "alert-direction fas alert-down fa-arrow-dn"
                             +:+ Js.quote +:+ "></span>")
             else data_value (Js.number_to_string (a_direction active_alert));
           dt_cancellation_price_cell :=
             data_value (format_price market_id (a_cancellation_price active_alert)
                           +:+ " (" +:+ cancellation_price_pct active_alert +:+ ")");
           dt_cancellation_condition_cell := data_value cancellation_msg;
           dt_comment_cell :=
             data_value (if Js.truthy_string (a_message active_alert)
                         then a_message active_alert else "-") |}
  end.

End Alerts.

(** ** Sample data *)

(** A formatter to run the handlers with: two decimals, whatever the market. *)
Definition two_decimals (market_id : string) (price : float) : string :=
  Js.toFixed (fun _ => "") 2 price.

(** A page that has loaded its markets and nothing else. *)
Definition fresh_window : window :=
  {| markets := {[ "EURUSD" := {| m_market_id := "CS.D.EURUSD.MINI.IP";
                                  m_symbol := "EURUSD" |} ]};
     active_alerts := ∅; alerts := ∅;
     window_alert := builtin_alert;
     server := {| permissions := ["strategy-trader"]; auth_token := "token";
                  session := "session" |};
     active_alert_rows := []; alert_rows := [];
     notified := []; played := []; requested := [] |}.

Definition sample_signal (id : Z) : signal_alert :=
  {| s_id := id; s_market_id := "EURUSD"; s_symbol := "EURUSD";
     s_name := "price-cross"; s_trigger := 1; s_timeframe := "t";
     s_timestamp := 0%float; s_last_price := 100%float;
     s_reason := "crossed"; s_message := "" |}.

Definition sample_alert (id direction : Z) (cancellation : option float) : active_alert :=
  {| a_id := id; a_market_id := "EURUSD"; a_symbol := "EURUSD";
     a_name := "price-cross"; a_direction := direction; a_price_src := 0;
     a_price := 100%float; a_cancellation := cancellation;
     a_cancellation_price := 95%float; a_timeframe := "";
     a_created := 0%float; a_timestamp := 0%float; a_expiry := 0%float;
     a_countdown := ""; a_message := "" |}.

Definition sample_base_url : string := "http://localhost:8080/api/v1".

(** Signals [1 .. n] pushed one after the other. *)
Definition push_signals (n : nat) (w : window) : window :=
  fold_left (fun w' id =>
               on_strategy_signal_alert "EURUSD" id 0%float (sample_signal id) true w')
            (map Z.of_nat (seq 1 n)) w.

(** The keys the spec lets through [requestRemoval], read from its words: a
    non-empty market id, a colon, and a positive integer in decimal digits. *)
Definition is_decimal_digit (c : ascii) : bool :=
  let n := Z.of_nat (nat_of_ascii c) in (48 <=? n) && (n <=? 57).

Fixpoint all_digits (s : string) : bool :=
  match s with
  | EmptyString => true
  | String c rest => is_decimal_digit c && all_digits rest
  end.

Definition positive_integer (s : string) : bool :=
  Js.truthy_string s && all_digits s &&
  match Js.read_digits 10 s None with Some n => 0 <? n | None => false end.

Definition decomposes (key : string) : bool :=
  match Js.split ":" key with
  | [market_id; alert_id] => Js.truthy_string market_id && positive_integer alert_id
  | _ => false
  end.

(** The entries a collection holds under a key. *)
Definition entries_under {V} (key : string) (m : gmap string V) : list (string * V) :=
  filter (fun kv => kv.1 = key) (map_to_list m).

(** The request [on_remove_alert] sends for what it found under the market
    part of the key and the number it read from the id part. *)
Definition removal_request (base_url : string) (w : window)
    (market : Js.property market) (id : Js.number) : ajax_request :=
  {| r_type := "DELETE"; r_url := base_url +:+ "/" +:+ "strategy/alert";
     r_authorization := "Bearer " +:+ auth_token (server w);
     r_session := session (server w);
     r_data := Some {| d_market_id := match market with
                                      | Js.Own m => Some (m_market_id m)
                                      | _ => None
                                      end;
                       d_alert_id := id; d_action := "del-alert" |} |}.

(** The key both collections and both tables use for an alert. *)
Definition alert_key (market_id : string) (alert_id : Z) : string :=
  market_id +:+ ":" +:+ Js.number_to_string alert_id.

(** Whether a character occurs in a string. *)
Fixpoint contains (c : ascii) (s : string) : bool :=
  match s with
  | EmptyString => false
  | String c' rest => Ascii.eqb c' c || contains c rest
  end.

(** The digits of [d], read from the left onto the value [acc]. *)
Fixpoint digits_onto (d : Decimal.uint) (acc : Z) : Z :=
  match d with
  | Decimal.Nil => acc
  | Decimal.D0 d => digits_onto d (10 * acc + 0)
  | Decimal.D1 d => digits_onto d (10 * acc + 1)
  | Decimal.D2 d => digits_onto d (10 * acc + 2)
  | Decimal.D3 d => digits_onto d (10 * acc + 3)
  | Decimal.D4 d => digits_onto d (10 * acc + 4)
  | Decimal.D5 d => digits_onto d (10 * acc + 5)
  | Decimal.D6 d => digits_onto d (10 * acc + 6)
  | Decimal.D7 d => digits_onto d (10 * acc + 7)
  | Decimal.D8 d => digits_onto d (10 * acc + 8)
  | Decimal.D9 d => digits_onto d (10 * acc + 9)
  end.

(** A printed integer read back digit by digit, without any rounding. *)
Definition read_integer (s : string) : option Z :=
  match s with
  | String "-" rest => option_map Z.opp (Js.read_digits 10 rest None)
  | _ => Js.read_digits 10 s None
  end.

(** Every alert of the active collection has a row in the table. *)
Definition rows_cover (w : window) : Prop :=
  forall key, is_Some (active_alerts w !! key) ->
              In key (map ar_key (active_alert_rows w)).

(** The collection a list of loaded alerts leaves: each under its key, a
    later one replacing an earlier one of the same key. *)
Definition loaded {A} (key_of : A -> string) (l : list A) : gmap string A :=
  fold_left (fun m a => <[key_of a := a]> m) l ∅.

Definition active_alert_key (a : active_alert) : string :=
  alert_key (a_market_id a) (a_id a).

Definition signal_alert_key (a : signal_alert) : string :=
  alert_key (s_market_id a) (s_id a).

(** ** What the effect primitives leave alone *)

Lemma notify_frame n w :
  markets (notify n w) = markets w /\
  active_alerts (notify n w) = active_alerts w /\
  alerts (notify n w) = alerts w /\
  requested (notify n w) = requested w.
Proof. repeat split. Qed.

(** A loop that only notifies appends one notification per element, in
    order, and touches nothing else. *)
Lemma notify_each {A} (f : A -> notification) (l : list A) (w : window) :
  let w' := fold_left (fun w0 x => notify (f x) w0) l w in
  notified w' = (notified w ++ map f l)%list /\
  active_alerts w' = active_alerts w /\
  alerts w' = alerts w /\
  requested w' = requested w.
Proof.
  revert w. induction l as [|x l IH]; intros w; simpl.
  - rewrite app_nil_r. repeat split.
  - destruct (IH (notify (f x) w)) as (Hn & Ha & Hs & Hr).
    rewrite Hn, Ha, Hs, Hr. simpl. rewrite <- app_assoc. repeat split.
Qed.

(** ** The historical collection *)

Lemma cleanup_above_200_id w : cleanup_above_200 w = w.
Proof.
  unfold cleanup_above_200. destruct (200 <? _); [|reflexivity].
  generalize ((map_to_list (alerts w)).*1). intros keys.
  induction keys as [|k keys IH]; simpl; [reflexivity|exact IH].
Qed.

(** A signal is stored under its key and nothing is taken out. *)
Lemma on_strategy_signal_alert_alerts market_id alert_id timestamp alert do_notify w :
  alerts (on_strategy_signal_alert market_id alert_id timestamp alert do_notify w)
  = <[market_id +:+ ":" +:+ Js.number_to_string (s_id alert) := alert]> (alerts w).
Proof.
  unfold on_strategy_signal_alert. rewrite cleanup_above_200_id.
  destruct do_notify; reflexivity.
Qed.

Lemma on_strategy_signal_alert_keeps market_id alert_id timestamp alert do_notify w key :
  is_Some (alerts w !! key) ->
  is_Some (alerts (on_strategy_signal_alert market_id alert_id timestamp alert
                     do_notify w) !! key).
Proof.
  intros H. rewrite on_strategy_signal_alert_alerts.
  rewrite lookup_insert_is_Some. destruct (decide
    (market_id +:+ ":" +:+ Js.number_to_string (s_id alert) = key)); auto.
Qed.

Lemma on_strategy_signal_alert_grows market_id alert_id timestamp alert do_notify w :
  (size (alerts w) <=
   size (alerts (on_strategy_signal_alert market_id alert_id timestamp alert
                   do_notify w)))%nat.
Proof.
  rewrite on_strategy_signal_alert_alerts.
  destruct (alerts w !! (market_id +:+ ":" +:+ Js.number_to_string (s_id alert)))
    as [old|] eqn:E.
  - rewrite map_size_insert_Some by eauto. lia.
  - rewrite map_size_insert_None by exact E. lia.
Qed.


(** C1 (the cap of 200 historical entries, oldest evicted first): the code
    does not keep it. After 201 signals with distinct ids pushed into an
    empty collection, [window.alerts] holds 201 entries, the first one
    included: the cleanup branch is entered and removes nothing. *)
Theorem signal_alerts_exceed_200 :
  size (alerts (push_signals 201 fresh_window)) = 201%nat /\
  alerts (push_signals 201 fresh_window) !! "EURUSD:1" = Some (sample_signal 1) /\
  alerts (push_signals 201 fresh_window) !! "EURUSD:201" = Some (sample_signal 201).
Proof. vm_compute. repeat split. Qed.

(** ** The formatting rules *)

Section Formatting.

Variable format_price : string -> float -> string.

(** With a threshold set, a long alert is phrased with [<]. *)
Lemma alert_cancellation_format_long alert alert_data market_id price_src c :
  a_cancellation alert_data = Some c ->
  PrimFloat.ltb 0 c = true ->
  0 < a_direction alert_data ->
  alert_cancellation_format format_price alert alert_data market_id price_src
  = "if " +:+ price_src +:+ " price < " +:+ format_price market_id c.
Proof.
  intros Hc Hpos Hd. unfold alert_cancellation_format.
  rewrite Hc. simpl. rewrite Hpos.
  destruct (Z.ltb_spec 0 (a_direction alert_data)); [reflexivity|lia].
Qed.

(** Without a threshold the answer is "never". *)
Lemma alert_cancellation_format_unset alert alert_data market_id price_src :
  Js.float_gt0 (a_cancellation alert_data) = false ->
  alert_cancellation_format format_price alert alert_data market_id price_src = "never".
Proof. intros H. unfold alert_cancellation_format. rewrite H. reflexivity. Qed.

(** C2 (cancellation text: "price <" for long, "price >" for short, "never"
    when unset): the short case is not what the code does. Its second test
    reads the direction of the global [alert], which in a browser has none,
    so every alert that is not long gets "never", threshold or not. *)
Theorem alert_cancellation_format_short_is_never alert_data market_id price_src :
  a_direction alert_data <= 0 ->
  alert_cancellation_format format_price builtin_alert alert_data market_id price_src
  = "never".
Proof.
  intros Hd. unfold alert_cancellation_format.
  destruct (Js.float_gt0 (a_cancellation alert_data)); [|reflexivity].
  destruct (Z.ltb_spec 0 (a_direction alert_data)); [lia|reflexivity].
Qed.

(** A price-cross alert going up is phrased with the trigger price. *)
Lemma alert_name_format_long alert alert_data market_id price_src :
  a_name alert_data = "price-cross" ->
  0 < a_direction alert_data ->
  alert_name_format format_price alert alert_data market_id price_src
  = "if " +:+ price_src +:+ " price goes above "
      +:+ format_price market_id (a_price alert_data).
Proof.
  intros Hn Hd. unfold alert_name_format. rewrite Hn. simpl.
  destruct (Z.ltb_spec 0 (a_direction alert_data)); [reflexivity|lia].
Qed.

(** Another kind of alert has no condition text. *)
Lemma alert_name_format_other_kind alert alert_data market_id price_src :
  a_name alert_data <> "price-cross" ->
  alert_name_format format_price alert alert_data market_id price_src = "-".
Proof.
  intros Hn. unfold alert_name_format.
  destruct (String.eqb_spec (a_name alert_data) "price-cross"); [contradiction|reflexivity].
Qed.

(** C3 (trigger text: "goes above" for a positive direction, "goes below"
    for a negative one, "-" otherwise): the negative case is not what the
    code does. The test for it reads the direction of the global [alert];
    in a browser every alert whose direction is not positive gets "-". *)
Theorem alert_name_format_short_is_dash alert_data market_id price_src :
  a_direction alert_data <= 0 ->
  alert_name_format format_price builtin_alert alert_data market_id price_src = "-".
Proof.
  intros Hd. unfold alert_name_format.
  destruct (String.eqb (a_name alert_data) "price-cross"); [|reflexivity].
  destruct (Z.ltb_spec 0 (a_direction alert_data)); [lia|reflexivity].
Qed.

End Formatting.

(** Loading one long price-cross alert at 100 on the bid shows its trigger
    text in the first row of the table, and notifies nothing. *)
Example fetch_alerts_active_done_row format_price :
  option_map ar_condition
    (head (active_alert_rows
             (fetch_alerts_active_done format_price
                (Some [sample_alert 1 1 None]) fresh_window)))
  = Some ("if bid price goes above " +:+ format_price "EURUSD" 100%float) /\
  notified (fetch_alerts_active_done format_price
              (Some [sample_alert 1 1 None]) fresh_window) = [].
Proof. split; reflexivity. Qed.

Lemma alert_cancellation_format_short_is_never_at_95 :
  a_direction (sample_alert 1 (-1) (Some 95%float)) <= 0 /\
  Js.float_gt0 (a_cancellation (sample_alert 1 (-1) (Some 95%float))) = true /\
  alert_cancellation_format two_decimals builtin_alert
    (sample_alert 1 (-1) (Some 95%float)) "EURUSD" "bid" = "never".
Proof.
  split; [simpl; lia|]. split; [reflexivity|].
  apply (alert_cancellation_format_short_is_never two_decimals
           (sample_alert 1 (-1) (Some 95%float)) "EURUSD" "bid").
  simpl; lia.
Defined.

Lemma alert_name_format_short_is_dash_at_100 :
  a_direction (sample_alert 1 (-1) None) <= 0 /\
  a_name (sample_alert 1 (-1) None) = "price-cross" /\
  alert_name_format two_decimals builtin_alert
    (sample_alert 1 (-1) None) "EURUSD" "bid" = "-".
Proof.
  split; [simpl; lia|]. split; [reflexivity|].
  apply (alert_name_format_short_is_dash two_decimals
           (sample_alert 1 (-1) None) "EURUSD" "bid").
  simpl; lia.
Defined.

(** ** Removal requests *)

Section Removal.

Variable base_url : string.

Lemma on_remove_alert_frame key w :
  active_alerts (on_remove_alert base_url key w).2 = active_alerts w /\
  alerts (on_remove_alert base_url key w).2 = alerts w /\
  notified (on_remove_alert base_url key w).2 = notified w /\
  markets (on_remove_alert base_url key w).2 = markets w.
Proof.
  unfold on_remove_alert.
  repeat case_match; simpl; auto.
Qed.

(** C4, as the code has it: a key that does not split at the colon into
    exactly two parts is answered with [false]; a two-part key whose market
    part is empty or is nothing [window.markets[market_id]] finds (neither
    a market of the table nor a name every object inherits), or whose id
    part [parseInt] reads as NaN or as 0, is answered with [undefined].
    Either way no request is sent, nothing is notified and the page is left
    as it was. *)
Theorem on_remove_alert_drops key w :
  (length (Js.split ":" key) <> 2%nat \/
   exists market_id part1,
     Js.split ":" key = [market_id; part1] /\
     (market_id = "" \/ Js.get (markets w) market_id = Js.Undefined \/
      Js.parseInt part1 = Js.NaN \/ Js.parseInt part1 = Js.Int 0)) ->
  on_remove_alert base_url key w
  = (if decide (length (Js.split ":" key) = 2%nat)
     then ReturnedUndefined else ReturnedFalse, w).
Proof.
  unfold on_remove_alert. intros [Hlen | (market_id & part1 & Hs & Hbad)].
  - destruct (Js.split ":" key) as [|m [|p [|q parts]]]; simpl in *;
      try reflexivity.
    contradiction Hlen; reflexivity.
  - rewrite Hs. simpl.
    destruct Hbad as [-> | [-> | [-> | ->]]].
    + reflexivity.
    + rewrite andb_false_r. reflexivity.
    + rewrite andb_false_r. reflexivity.
    + rewrite andb_false_r. reflexivity.
Qed.

(** C5: whatever the key and however the request ends, a removal leaves
    [window.active_alerts] and [window.alerts] as they were. *)
Theorem remove_alert_round_keeps_collections key outcome w :
  active_alerts (remove_alert_round base_url key outcome w).2 = active_alerts w /\
  alerts (remove_alert_round base_url key outcome w).2 = alerts w.
Proof.
  unfold remove_alert_round.
  destruct (on_remove_alert_frame key w) as (Ha & Hs & _ & _).
  destruct (on_remove_alert base_url key w) as [r w']. simpl in Ha, Hs.
  destruct (_ <? _)%nat; simpl; [|auto].
  destruct outcome as [data|data]; simpl.
  - unfold on_remove_alert_done. destruct (rr_error data).
    + destruct (notify_each
                  (fun msg => {| n_message := msg; n_title := "Remove Alert";
                                 n_type := "error" |}) (rr_messages data) w')
        as (_ & Ha' & Hs' & _).
      simpl in Ha', Hs'. rewrite Ha', Hs'. auto.
    + simpl. auto.
  - unfold on_remove_alert_fail.
    destruct (notify_each
                (fun msg : nat =>
                   {| n_message := Js.number_to_string (Z.of_nat msg);
                      n_title := "Remove Alert"; n_type := "error" |})
                (seq 0 (length (x_messages data))) w')
      as (_ & Ha' & Hs' & _).
    simpl in Ha', Hs'. rewrite Ha', Hs'. auto.
Qed.

(** C6: the [done] callback of a removal notifies one error per message of
    an error answer, in their order and with their text, and one success
    otherwise; the click itself notifies nothing. *)
Theorem on_remove_alert_done_notifies key data w :
  notified (on_remove_alert base_url key w).2 = notified w /\
  notified (on_remove_alert_done data w)
  = (notified w ++
     if rr_error data
     then map (fun msg => {| n_message := msg; n_title := "Remove Alert";
                             n_type := "error" |}) (rr_messages data)
     else [ {| n_message := "Success"; n_title := "Remove Alert";
               n_type := "success" |} ])%list.
Proof.
  split; [apply on_remove_alert_frame|].
  unfold on_remove_alert_done. destruct (rr_error data); [|reflexivity].
  apply (notify_each
           (fun msg => {| n_message := msg; n_title := "Remove Alert";
                          n_type := "error" |})).
Qed.

End Removal.

Lemma on_remove_alert_drops_EURUSD :
  (length (Js.split ":" "EURUSD") <> 2%nat \/
   exists market_id part1,
     Js.split ":" "EURUSD" = [market_id; part1] /\
     (market_id = "" \/ Js.get (markets fresh_window) market_id = Js.Undefined \/
      Js.parseInt part1 = Js.NaN \/ Js.parseInt part1 = Js.Int 0)) /\
  on_remove_alert sample_base_url "EURUSD" fresh_window = (ReturnedFalse, fresh_window).
Proof.
  assert (H : length (Js.split ":" "EURUSD") <> 2%nat) by (simpl; lia).
  split; [left; exact H|].
  exact (on_remove_alert_drops sample_base_url "EURUSD" fresh_window (or_introl H)).
Defined.

(** C4 as the spec words it fails on a negative id: "EURUSD:-3" is no
    market id with a positive integer, and the request for alert -3 is
    sent all the same. *)
Lemma on_remove_alert_sends_negative_id :
  decomposes "EURUSD:-3" = false /\
  requested (on_remove_alert sample_base_url "EURUSD:-3" fresh_window).2
  = [ {| r_type := "DELETE";
         r_url := "http://localhost:8080/api/v1/strategy/alert";
         r_authorization := "Bearer token"; r_session := "session";
         r_data := Some {| d_market_id := Some "CS.D.EURUSD.MINI.IP";
                           d_alert_id := Js.Int (-3);
                           d_action := "del-alert" |} |} ].
Proof. split; reflexivity. Qed.

(** The market part is looked up as [window.markets[market_id]], which
    also finds what every object inherits: "constructor:5" sends a request,
    without a market id. *)
Example on_remove_alert_constructor :
  requested (on_remove_alert sample_base_url "constructor:5" fresh_window).2
  = [ {| r_type := "DELETE";
         r_url := "http://localhost:8080/api/v1/strategy/alert";
         r_authorization := "Bearer token"; r_session := "session";
         r_data := Some {| d_market_id := None; d_alert_id := Js.Int 5;
                           d_action := "del-alert" |} |} ].
Proof. reflexivity. Qed.

(** The id sent is the number [parseInt] returns, rounded where a number
    cannot hold the digits. *)
Example parseInt_rounds :
  Js.parseInt "9007199254740993" = Js.Int 9007199254740992 /\
  Js.parseInt "-12" = Js.Int (-12) /\
  Js.parseInt "0x1F" = Js.Int 31 /\
  Js.parseInt "5abc" = Js.Int 5 /\
  Js.parseInt "abc" = Js.NaN.
Proof. repeat split; vm_compute; reflexivity. Qed.

(** ** Refresh callbacks *)

(** C7: a failed refresh keeps both collections and notifies one error,
    for the active alerts and for the historical ones alike. *)
Theorem fetch_alerts_fail_keeps w :
  (active_alerts (fetch_alerts_active_fail w) = active_alerts w /\
   alerts (fetch_alerts_active_fail w) = alerts w /\
   exists n, notified (fetch_alerts_active_fail w) = (notified w ++ [n])%list /\
             n_type n = "error" /\
             n_message n = "Unable to obtains actives alerts !") /\
  (active_alerts (fetch_alerts_historical_fail w) = active_alerts w /\
   alerts (fetch_alerts_historical_fail w) = alerts w /\
   exists n, notified (fetch_alerts_historical_fail w) = (notified w ++ [n])%list /\
             n_type n = "error" /\
             n_message n = "Unable to obtains historical alerts !").
Proof.
  split; (split; [reflexivity|]; split; [reflexivity|]);
    eexists; (split; [reflexivity|]); split; reflexivity.
Qed.

(** C10: a refresh that succeeds without a [data] list empties its
    collection, where a failed one would have kept it; the other collection
    and the notifications are not touched. *)
Theorem fetch_alerts_done_without_data format_price w :
  (active_alerts (fetch_alerts_active_done format_price None w) = ∅ /\
   alerts (fetch_alerts_active_done format_price None w) = alerts w /\
   notified (fetch_alerts_active_done format_price None w) = notified w) /\
  (alerts (fetch_alerts_historical_done None w) = ∅ /\
   active_alerts (fetch_alerts_historical_done None w) = active_alerts w /\
   notified (fetch_alerts_historical_done None w) = notified w).
Proof. repeat split. Qed.

(** ** The active collection *)

Lemma entries_under_absent {V} (key : string) (l : list (string * V)) :
  key ∉ l.*1 -> filter (fun kv : string * V => kv.1 = key) l = [].
Proof.
  induction l as [|[k v] l IH]; intros Hk; [reflexivity|].
  rewrite fmap_cons, not_elem_of_cons in Hk. destruct Hk as [Hne Hk].
  rewrite filter_cons_False by (intros E; apply Hne; symmetry; exact E). auto.
Qed.

Lemma entries_under_NoDup {V} (key : string) (v : V) (l : list (string * V)) :
  NoDup l.*1 -> (key, v) ∈ l ->
  filter (fun kv : string * V => kv.1 = key) l = [(key, v)].
Proof.
  induction l as [|[k v'] l IH]; intros Hnd Hin.
  - apply elem_of_nil in Hin as [].
  - rewrite fmap_cons in Hnd. apply NoDup_cons in Hnd as [Hk Hnd].
    apply elem_of_cons in Hin as [Heq | Hin].
    + inversion Heq; subst k v'.
      rewrite filter_cons_True by reflexivity.
      rewrite entries_under_absent by exact Hk. reflexivity.
    + assert (Hne : k <> key).
      { intros ->. apply Hk.
        exact (list_elem_of_fmap_2 fst l (key, v) Hin). }
      rewrite filter_cons_False by exact Hne. auto.
Qed.

(** A collection holds one entry under a key that it maps. *)
Lemma entries_under_lookup {V} (key : string) (v : V) (m : gmap string V) :
  m !! key = Some v -> entries_under key m = [(key, v)].
Proof.
  intros H. unfold entries_under.
  apply entries_under_NoDup; [apply NoDup_fst_map_to_list|].
  apply elem_of_map_to_list. exact H.
Qed.

Lemma on_strategy_create_alert_active_alerts format_price market_id alert_id
    timestamp alert do_notify w :
  active_alerts (on_strategy_create_alert format_price market_id alert_id timestamp
                   alert do_notify w)
  = <[market_id +:+ ":" +:+ Js.number_to_string alert_id := alert]> (active_alerts w).
Proof. unfold on_strategy_create_alert. destruct do_notify; reflexivity. Qed.

(** C8: two created events for the same market and alert id leave one
    entry under the key, with the fields of the second; pushing the very
    same event again changes nothing in the collection, and no other key
    is affected. *)
Theorem on_strategy_create_alert_twice format_price market_id alert_id
    timestamp1 timestamp2 alert1 alert2 notify1 notify2 w :
  let key := market_id +:+ ":" +:+ Js.number_to_string alert_id in
  let w1 := on_strategy_create_alert format_price market_id alert_id timestamp1
              alert1 notify1 w in
  let w2 := on_strategy_create_alert format_price market_id alert_id timestamp2
              alert2 notify2 w1 in
  entries_under key (active_alerts w2) = [(key, alert2)] /\
  active_alerts w2 !! key = Some alert2 /\
  size (active_alerts w2) = size (active_alerts w1) /\
  (forall other, other <> key -> active_alerts w2 !! other = active_alerts w !! other) /\
  (alert1 = alert2 -> active_alerts w2 = active_alerts w1).
Proof.
  intros key w1 w2. subst w1 w2.
  rewrite !on_strategy_create_alert_active_alerts. fold key.
  assert (Hl : <[key := alert2]> (<[key := alert1]> (active_alerts w)) !! key
               = Some alert2) by apply lookup_insert_eq.
  split; [apply entries_under_lookup; exact Hl|].
  split; [exact Hl|].
  split.
  { rewrite insert_insert_eq. destruct (active_alerts w !! key) as [old|] eqn:E.
    - rewrite !map_size_insert_Some by eauto. reflexivity.
    - rewrite !map_size_insert_None by exact E. reflexivity. }
  split.
  { intros other Hne. rewrite !lookup_insert_ne by congruence. reflexivity. }
  intros ->. apply insert_insert_eq.
Qed.

Lemma on_strategy_create_alert_twice_EURUSD_1 :
  entries_under "EURUSD:1"
    (active_alerts
       (on_strategy_create_alert two_decimals "EURUSD" 1 0%float
          (sample_alert 1 1 (Some 95%float)) true
          (on_strategy_create_alert two_decimals "EURUSD" 1 0%float
             (sample_alert 1 1 None) true fresh_window)))
  = [("EURUSD:1", sample_alert 1 1 (Some 95%float))].
Proof.
  exact (proj1 (on_strategy_create_alert_twice two_decimals "EURUSD" 1 0%float
                  0%float (sample_alert 1 1 None) (sample_alert 1 1 (Some 95%float))
                  true true fresh_window)).
Defined.

(** ** The cancellation percentage *)


(** A short alert is handed the sign -1, as is any direction other than 1. *)
Lemma direction_sign_values direction :
  direction_sign direction = if direction =? 1 then 1%float else (-1)%float.
Proof. reflexivity. Qed.



(** ** Keys: built by the push handlers, taken apart by the removal *)

Lemma read_digits_uint d acc :
  Js.read_digits 10 (NilEmpty.string_of_uint d) (Some acc) = Some (digits_onto d acc).
Proof.
  revert acc. induction d; intros acc; simpl; try reflexivity; apply IHd.
Qed.

Lemma digits_onto_acc d acc :
  Z.pos (Pos.of_uint_acc d acc) = digits_onto d (Z.pos acc).
Proof.
  revert acc. induction d; intros acc; simpl; try reflexivity;
    rewrite IHd; f_equal; lia.
Qed.

Lemma digits_onto_of_uint d : digits_onto d 0 = Z.of_N (Pos.of_uint d).
Proof.
  induction d; simpl; try reflexivity; try (rewrite digits_onto_acc; f_equal; lia).
  exact IHd.
Qed.

Lemma read_digits_to_uint p :
  Js.read_digits 10 (NilEmpty.string_of_uint (Pos.to_uint p)) None = Some (Z.pos p).
Proof.
  assert (H : forall d, d <> Decimal.Nil ->
            Js.read_digits 10 (NilEmpty.string_of_uint d) None
            = Some (digits_onto d 0)).
  { intros d Hd. destruct d; try contradiction; simpl; apply read_digits_uint. }
  rewrite H by apply Unsigned.to_uint_nonnil.
  rewrite digits_onto_of_uint, Unsigned.of_to. reflexivity.
Qed.

(** Decimal digits carry no white space, no sign and no hex prefix. *)
Lemma parseInt_uint d :
  d <> Decimal.Nil ->
  Js.parseInt (NilEmpty.string_of_uint d)
  = match Js.read_digits 10 (NilEmpty.string_of_uint d) None with
    | Some n => Js.to_binary64 (1 * n)
    | None => Js.NaN
    end /\
  Js.parseInt (String "-" (NilEmpty.string_of_uint d))
  = match Js.read_digits 10 (NilEmpty.string_of_uint d) None with
    | Some n => Js.to_binary64 (-1 * n)
    | None => Js.NaN
    end.
Proof.
  intros Hd. unfold Js.parseInt.
  destruct d as [|d|d|d|d|d|d|d|d|d|d]; try contradiction;
    try (split; reflexivity).
  destruct d; split; reflexivity.
Qed.

Lemma read_integer_uint d :
  d <> Decimal.Nil ->
  read_integer (NilEmpty.string_of_uint d)
  = Js.read_digits 10 (NilEmpty.string_of_uint d) None.
Proof. destruct d; [contradiction|reflexivity..]. Qed.

Lemma string_of_uint_nonnil d :
  d <> Decimal.Nil -> NilZero.string_of_uint d = NilEmpty.string_of_uint d.
Proof. destruct d; [contradiction|reflexivity..]. Qed.

Lemma number_to_string_pos p :
  Js.number_to_string (Z.pos p) = NilEmpty.string_of_uint (Pos.to_uint p).
Proof.
  unfold Js.number_to_string.
  change (Z.to_int (Z.pos p)) with (Decimal.Pos (Pos.to_uint p)).
  apply string_of_uint_nonnil, Unsigned.to_uint_nonnil.
Qed.

Lemma number_to_string_neg p :
  Js.number_to_string (Z.neg p)
  = String "-" (NilEmpty.string_of_uint (Pos.to_uint p)).
Proof.
  unfold Js.number_to_string.
  change (Z.to_int (Z.neg p)) with (Decimal.Neg (Pos.to_uint p)).
  unfold NilZero.string_of_int. f_equal.
  apply string_of_uint_nonnil, Unsigned.to_uint_nonnil.
Qed.

(** [parseInt] reads back the integer that string concatenation printed,
    for the integers a number holds exactly. *)
Lemma parseInt_number_to_string n :
  Js.safe_integer n = true -> Js.parseInt (Js.number_to_string n) = Js.Int n.
Proof.
  intros Hn. destruct n as [|p|p]; [reflexivity| |].
  - rewrite number_to_string_pos.
    rewrite (proj1 (parseInt_uint _ (Unsigned.to_uint_nonnil p))).
    rewrite read_digits_to_uint. change (1 * Z.pos p) with (Z.pos p).
    unfold Js.to_binary64. rewrite Hn. reflexivity.
  - rewrite number_to_string_neg.
    rewrite (proj2 (parseInt_uint _ (Unsigned.to_uint_nonnil p))).
    rewrite read_digits_to_uint. change (-1 * Z.pos p) with (Z.neg p).
    unfold Js.to_binary64. rewrite Hn. reflexivity.
Qed.

Lemma read_integer_number_to_string n :
  read_integer (Js.number_to_string n) = Some n.
Proof.
  destruct n as [|p|p]; [reflexivity| |].
  - rewrite number_to_string_pos.
    rewrite read_integer_uint by apply Unsigned.to_uint_nonnil.
    apply read_digits_to_uint.
  - rewrite number_to_string_neg. simpl. rewrite read_digits_to_uint. reflexivity.
Qed.

Lemma number_to_string_inj n1 n2 :
  Js.number_to_string n1 = Js.number_to_string n2 -> n1 = n2.
Proof.
  intros H. pose proof (read_integer_number_to_string n1) as H1.
  rewrite H, read_integer_number_to_string in H1. congruence.
Qed.

Lemma contains_colon_uint d : contains ":" (NilEmpty.string_of_uint d) = false.
Proof. induction d; simpl; auto. Qed.

Lemma contains_colon_number n : contains ":" (Js.number_to_string n) = false.
Proof.
  unfold Js.number_to_string.
  destruct (Z.to_int n) as [d|d]; simpl;
    (destruct d; [reflexivity | apply (contains_colon_uint (_ d)) ..]).
Qed.

Lemma contains_app c s t : contains c (s +:+ String c t) = true.
Proof.
  induction s as [|c' s IH]; simpl.
  - rewrite Ascii.eqb_refl. reflexivity.
  - rewrite IH. apply orb_true_r.
Qed.

Lemma split_without sep s : contains sep s = false -> Js.split sep s = [s].
Proof.
  induction s as [|c s IH]; simpl; [reflexivity|].
  intros H. apply orb_false_elim in H as [Hc Hs].
  rewrite Hc, (IH Hs). reflexivity.
Qed.

Lemma split_at_first sep s t :
  contains sep s = false ->
  Js.split sep (s +:+ String sep t) = s :: Js.split sep t.
Proof.
  induction s as [|c s IH]; simpl.
  - intros _. rewrite Ascii.eqb_refl. reflexivity.
  - intros H. apply orb_false_elim in H as [Hc Hs].
    rewrite Hc, (IH Hs). reflexivity.
Qed.

Lemma split_alert_key market_id alert_id :
  contains ":" market_id = false ->
  Js.split ":" (alert_key market_id alert_id)
  = [market_id; Js.number_to_string alert_id].
Proof.
  intros H. unfold alert_key.
  change (":" +:+ Js.number_to_string alert_id)
    with (String ":" (Js.number_to_string alert_id)).
  rewrite split_at_first by exact H.
  rewrite split_without by apply contains_colon_number. reflexivity.
Qed.

(** A key tells its market and its alert id. *)
Lemma alert_key_inj market1 id1 market2 id2 :
  alert_key market1 id1 = alert_key market2 id2 -> market1 = market2 /\ id1 = id2.
Proof.
  unfold alert_key.
  change (":" +:+ Js.number_to_string id1) with (String ":" (Js.number_to_string id1)).
  change (":" +:+ Js.number_to_string id2) with (String ":" (Js.number_to_string id2)).
  revert market2. induction market1 as [|c m1 IH]; intros [|c2 m2] H; simpl in H.
  - injection H as H. split; [reflexivity|exact (number_to_string_inj _ _ H)].
  - injection H as Hc H. pose proof (contains_colon_number id1) as Hn.
    rewrite H, contains_app in Hn. discriminate.
  - injection H as Hc H. pose proof (contains_colon_number id2) as Hn.
    rewrite <- H, contains_app in Hn. discriminate.
  - injection H as Hc H. destruct (IH m2 H) as [-> ->]. subst c2. auto.
Qed.

Lemma on_remove_alert_guard base_url key w market_id part1 :
  Js.split ":" key = [market_id; part1] ->
  market_id <> "" ->
  Js.truthy_property (Js.get (markets w) market_id) = true ->
  Js.truthy_number (Js.parseInt part1) = true ->
  on_remove_alert base_url key w
  = (ReturnedUndefined,
     ajax (removal_request base_url w (Js.get (markets w) market_id)
             (Js.parseInt part1)) w).
Proof.
  intros Hs Hm Hk Hp. unfold on_remove_alert. rewrite Hs, Hk, Hp.
  destruct market_id as [|c m]; [contradiction|]. reflexivity.
Qed.

(** X1: a click sends at most one request. Either the page is left as it
    was, or the key has two parts, the first is not empty and names
    something [window.markets[market_id]] finds, the second reads as a
    number that is neither NaN nor 0, and the one change is the DELETE of
    [strategy/alert] with that number as the alert id and, as the market
    id, the one of the market found, or none when what was found is not a
    market of the table. *)
Theorem on_remove_alert_one_request base_url key w :
  (on_remove_alert base_url key w).2 = w \/
  exists market_id part1,
    Js.split ":" key = [market_id; part1] /\
    market_id <> "" /\
    Js.get (markets w) market_id <> Js.Undefined /\
    Js.parseInt part1 <> Js.NaN /\ Js.parseInt part1 <> Js.Int 0 /\
    (on_remove_alert base_url key w).2
    = ajax (removal_request base_url w (Js.get (markets w) market_id)
              (Js.parseInt part1)) w.
Proof.
  unfold on_remove_alert.
  destruct (Js.split ":" key) as [|market_id [|part1 [|part2 parts]]] eqn:Hs;
    try (left; reflexivity).
  destruct market_id as [|c m]; [left; reflexivity|].
  destruct (Js.get (markets w) (String c m)) as [market| |] eqn:Hk;
    try (left; reflexivity);
    (destruct (Js.parseInt part1) as [|neg|id] eqn:Hp; [left; reflexivity| |]);
    try (destruct (Z.eqb_spec id 0) as [->|Hid]; [left; reflexivity|]);
    right; exists (String c m), part1; rewrite Hk, Hp; simpl;
    try (destruct (Z.eqb_spec id 0); [contradiction|]);
    repeat split; try discriminate; congruence.
Qed.

(** X2: the key a created alert gets on its row is one the removal
    accepts: for a market of the table whose id holds no colon and an alert
    id other than 0 that a number holds exactly, clicking the row sends the
    removal of that very alert id, with the market id of the table. *)
Theorem on_remove_alert_of_created_row base_url format_price market_id alert_id
    timestamp alert do_notify w market :
  contains ":" market_id = false ->
  market_id <> "" ->
  markets w !! market_id = Some market ->
  alert_id <> 0 ->
  Js.safe_integer alert_id = true ->
  exists row,
    head (active_alert_rows
            (on_strategy_create_alert format_price market_id alert_id timestamp
               alert do_notify w)) = Some row /\
    on_remove_alert base_url (ar_key row)
      (on_strategy_create_alert format_price market_id alert_id timestamp
         alert do_notify w)
    = (ReturnedUndefined,
       ajax (removal_request base_url w (Js.Own market) (Js.Int alert_id))
         (on_strategy_create_alert format_price market_id alert_id timestamp
            alert do_notify w)).
Proof.
  intros Hc Hm Hk Hid Hsafe.
  set (w1 := on_strategy_create_alert format_price market_id alert_id timestamp
               alert do_notify w).
  assert (Hrow : exists row, head (active_alert_rows w1) = Some row /\
                             ar_key row = alert_key market_id alert_id).
  { unfold w1, on_strategy_create_alert. destruct do_notify; simpl; eauto. }
  destruct Hrow as (row & Hhead & Hkey). exists row. split; [exact Hhead|].
  assert (Hmk : Js.get (markets w1) market_id = Js.Own market).
  { unfold w1, on_strategy_create_alert, Js.get.
    destruct do_notify; simpl; rewrite Hk; reflexivity. }
  rewrite Hkey.
  rewrite (on_remove_alert_guard base_url _ w1 market_id
             (Js.number_to_string alert_id)).
  - rewrite Hmk, parseInt_number_to_string by exact Hsafe.
    f_equal. unfold w1, on_strategy_create_alert. destruct do_notify; reflexivity.
  - apply split_alert_key, Hc.
  - exact Hm.
  - rewrite Hmk. reflexivity.
  - rewrite parseInt_number_to_string by exact Hsafe. simpl.
    destruct (Z.eqb_spec alert_id 0); [contradiction|reflexivity].
Qed.

Lemma on_remove_alert_of_created_row_EURUSD_7 :
  exists row,
    head (active_alert_rows
            (on_strategy_create_alert two_decimals "EURUSD" 7 0%float
               (sample_alert 7 1 None) true fresh_window)) = Some row /\
    on_remove_alert sample_base_url (ar_key row)
      (on_strategy_create_alert two_decimals "EURUSD" 7 0%float
         (sample_alert 7 1 None) true fresh_window)
    = (ReturnedUndefined,
       ajax (removal_request sample_base_url fresh_window
               (Js.Own {| m_market_id := "CS.D.EURUSD.MINI.IP";
                          m_symbol := "EURUSD" |}) (Js.Int 7))
         (on_strategy_create_alert two_decimals "EURUSD" 7 0%float
            (sample_alert 7 1 None) true fresh_window)).
Proof.
  apply (on_remove_alert_of_created_row sample_base_url two_decimals "EURUSD" 7
           0%float (sample_alert 7 1 None) true fresh_window).
  - reflexivity.
  - discriminate.
  - reflexivity.
  - lia.
  - reflexivity.
Defined.

(** X3: alerts that differ in market or in id never share an entry: after two
    created events for different pairs, both alerts are in the collection. *)
Theorem on_strategy_create_alert_distinct format_price market1 id1 market2 id2
    timestamp1 timestamp2 alert1 alert2 notify1 notify2 w :
  (market1, id1) <> (market2, id2) ->
  let w2 := on_strategy_create_alert format_price market2 id2 timestamp2 alert2
              notify2
              (on_strategy_create_alert format_price market1 id1 timestamp1
                 alert1 notify1 w) in
  active_alerts w2 !! alert_key market1 id1 = Some alert1 /\
  active_alerts w2 !! alert_key market2 id2 = Some alert2.
Proof.
  intros Hne w2. subst w2. rewrite !on_strategy_create_alert_active_alerts.
  fold (alert_key market1 id1). fold (alert_key market2 id2).
  assert (Hk : alert_key market2 id2 <> alert_key market1 id1).
  { intros E. apply alert_key_inj in E as [-> ->]. apply Hne. reflexivity. }
  split.
  - rewrite lookup_insert_ne by exact Hk. apply lookup_insert_eq.
  - apply lookup_insert_eq.
Qed.

Lemma on_strategy_create_alert_distinct_1_2 :
  active_alerts
    (on_strategy_create_alert two_decimals "EURUSD" 2 0%float (sample_alert 2 1 None)
       true
       (on_strategy_create_alert two_decimals "EURUSD" 1 0%float
          (sample_alert 1 1 None) true fresh_window))
  !! alert_key "EURUSD" 1 = Some (sample_alert 1 1 None).
Proof.
  refine (proj1 (on_strategy_create_alert_distinct two_decimals "EURUSD" 1 "EURUSD" 2
                   0%float 0%float (sample_alert 1 1 None) (sample_alert 2 1 None)
                   true true fresh_window _)).
  intros H. inversion H.
Defined.

(** ** Removal events *)

Lemma filter_other_keys_id key (rows : list active_alert_row) :
  Forall (fun r => ar_key r <> key) rows ->
  List.filter (fun r => negb (String.eqb (ar_key r) key)) rows = rows.
Proof.
  induction 1 as [|r rows Hr _ IH]; simpl; [reflexivity|].
  destruct (String.eqb_spec (ar_key r) key); [contradiction|].
  simpl. rewrite IH. reflexivity.
Qed.

Lemma filter_other_keys_Forall key (rows : list active_alert_row) :
  Forall (fun r => ar_key r <> key)
         (List.filter (fun r => negb (String.eqb (ar_key r) key)) rows).
Proof.
  induction rows as [|r rows IH]; simpl; [constructor|].
  destruct (String.eqb_spec (ar_key r) key); simpl; [exact IH|].
  constructor; assumption.
Qed.

Lemma window_eq w :
  {| markets := markets w; active_alerts := active_alerts w; alerts := alerts w;
     window_alert := window_alert w; server := server w;
     active_alert_rows := active_alert_rows w; alert_rows := alert_rows w;
     notified := notified w; played := played w; requested := requested w |} = w.
Proof. destruct w; reflexivity. Qed.

(** X4: for a key that is plain in a selector, a removed event takes the
    entry and every row of the key, and nothing else; a second one for the
    same key finds nothing left to do. *)
Theorem on_strategy_remove_alert_idempotent market_id timestamp timestamp' alert_id w :
  Js.plain_in_selector (alert_key market_id alert_id) = true ->
  exists w1,
    on_strategy_remove_alert market_id timestamp alert_id w = Some w1 /\
    active_alerts w1 !! alert_key market_id alert_id = None /\
    Forall (fun r => ar_key r <> alert_key market_id alert_id) (active_alert_rows w1) /\
    (forall other, other <> alert_key market_id alert_id ->
                   active_alerts w1 !! other = active_alerts w !! other) /\
    alerts w1 = alerts w /\ alert_rows w1 = alert_rows w /\
    notified w1 = notified w /\ played w1 = played w /\ requested w1 = requested w /\
    on_strategy_remove_alert market_id timestamp' alert_id w1 = Some w1.
Proof.
  intros Hplain. unfold on_strategy_remove_alert.
  fold (alert_key market_id alert_id). rewrite Hplain.
  eexists. split; [reflexivity|]. simpl.
  split; [apply lookup_delete_eq|].
  split; [apply filter_other_keys_Forall|].
  split; [intros other Hne; apply lookup_delete_ne; congruence|].
  repeat (split; [reflexivity|]).
  unfold set_active_alerts, remove_active_alert_rows; simpl.
  rewrite delete_delete_eq.
  rewrite filter_other_keys_id by apply filter_other_keys_Forall.
  reflexivity.
Qed.

Lemma on_strategy_remove_alert_idempotent_EURUSD_1 :
  exists w1,
    on_strategy_remove_alert "EURUSD" 0%float 1
      (on_strategy_create_alert two_decimals "EURUSD" 1 0%float
         (sample_alert 1 1 None) true fresh_window) = Some w1 /\
    active_alerts w1 !! alert_key "EURUSD" 1 = None /\
    on_strategy_remove_alert "EURUSD" 0%float 1 w1 = Some w1.
Proof.
  destruct (on_strategy_remove_alert_idempotent "EURUSD" 0%float 0%float 1
              (on_strategy_create_alert two_decimals "EURUSD" 1 0%float
                 (sample_alert 1 1 None) true fresh_window) eq_refl)
    as (w1 & H1 & H2 & _ & _ & _ & _ & _ & _ & _ & H3).
  exists w1. auto.
Defined.

(** X5: created and then removed, for a key that is plain in a selector
    and new to the collection and to the table: both are back where they
    were, and so is the whole page when the creation was silent. *)
Theorem on_strategy_remove_alert_undoes_create format_price market_id alert_id
    timestamp timestamp' alert do_notify w :
  Js.plain_in_selector (alert_key market_id alert_id) = true ->
  active_alerts w !! alert_key market_id alert_id = None ->
  Forall (fun r => ar_key r <> alert_key market_id alert_id) (active_alert_rows w) ->
  exists w2,
    on_strategy_remove_alert market_id timestamp' alert_id
      (on_strategy_create_alert format_price market_id alert_id timestamp
         alert do_notify w) = Some w2 /\
    active_alerts w2 = active_alerts w /\
    active_alert_rows w2 = active_alert_rows w /\
    (do_notify = false -> w2 = w).
Proof.
  intros Hplain Hnone Hrows.
  unfold on_strategy_remove_alert, on_strategy_create_alert.
  fold (alert_key market_id alert_id). rewrite Hplain.
  eexists. split; [reflexivity|].
  assert (Ha : delete (alert_key market_id alert_id)
                 (<[alert_key market_id alert_id := alert]> (active_alerts w))
               = active_alerts w).
  { rewrite delete_insert_eq. apply delete_id. exact Hnone. }
  destruct do_notify;
    unfold set_active_alerts, remove_active_alert_rows, prepend_active_alert_row,
      notify; simpl; rewrite Ha, String.eqb_refl; simpl;
    rewrite filter_other_keys_id by exact Hrows;
    (split; [reflexivity|]; split; [reflexivity|]); intros E; [discriminate|].
  apply window_eq.
Qed.

Lemma on_strategy_remove_alert_undoes_create_EURUSD_1 :
  exists w2,
    on_strategy_remove_alert "EURUSD" 0%float 1
      (on_strategy_create_alert two_decimals "EURUSD" 1 0%float
         (sample_alert 1 1 None) false fresh_window) = Some w2 /\
    w2 = fresh_window.
Proof.
  destruct (on_strategy_remove_alert_undoes_create two_decimals "EURUSD" 1
              0%float 0%float (sample_alert 1 1 None) false fresh_window
              eq_refl eq_refl (List.Forall_nil _))
    as (w2 & H1 & _ & _ & H2).
  exists w2. split; [exact H1|exact (H2 eq_refl)].
Defined.

(** A market id with a double quote or a backslash gives a key that the
    selector of the removed event does not take as it stands. *)
Example on_strategy_remove_alert_not_plain :
  on_strategy_remove_alert (String (ascii_of_nat 92) "41") 0%float 1 fresh_window
  = None /\
  on_strategy_remove_alert ("EUR" +:+ Js.quote +:+ "USD") 0%float 1 fresh_window
  = None.
Proof. split; reflexivity. Qed.

(** ** Loading a snapshot *)

Lemma loaded_lookup_other {A} (key_of : A -> string) (l : list A)
    (m : gmap string A) key :
  ~ In key (map key_of l) ->
  fold_left (fun m a => <[key_of a := a]> m) l m !! key = m !! key.
Proof.
  revert m. induction l as [|a l IH]; intros m Hk; simpl; [reflexivity|].
  simpl in Hk. rewrite IH by tauto. apply lookup_insert_ne. tauto.
Qed.

Lemma loaded_lookup_last {A} (key_of : A -> string) (l1 l2 : list A) a
    (m : gmap string A) :
  ~ In (key_of a) (map key_of l2) ->
  fold_left (fun m a => <[key_of a := a]> m) (l1 ++ a :: l2) m !! key_of a = Some a.
Proof.
  intros Hk. rewrite fold_left_app. simpl.
  rewrite loaded_lookup_other by exact Hk. apply lookup_insert_eq.
Qed.

(** What the loop of the active [done] callback does to the page. *)
Lemma fetch_alerts_active_loop format_price (l : list active_alert) w :
  let w' :=
    fold_left
      (fun w' alert =>
         let w' := set_active_alerts
                     (<[a_market_id alert +:+ ":" +:+ Js.number_to_string (a_id alert)
                        := alert]> (active_alerts w')) w' in
         on_strategy_create_alert format_price (a_market_id alert) (a_id alert)
           (a_timestamp alert) alert false w')
      l w in
  active_alerts w'
  = fold_left (fun m a => <[active_alert_key a := a]> m) l (active_alerts w) /\
  map ar_key (active_alert_rows w')
  = (rev (map active_alert_key l) ++ map ar_key (active_alert_rows w))%list /\
  alerts w' = alerts w /\ alert_rows w' = alert_rows w /\
  notified w' = notified w /\ played w' = played w /\ requested w' = requested w.
Proof.
  revert w. induction l as [|a l IH]; intros w; simpl.
  - repeat split.
  - specialize (IH (on_strategy_create_alert format_price (a_market_id a) (a_id a)
                      (a_timestamp a) a false
                      (set_active_alerts
                         (<[a_market_id a +:+ ":" +:+ Js.number_to_string (a_id a)
                            := a]> (active_alerts w)) w))).
    simpl in IH. destruct IH as (Ha & Hr & Hs & Hsr & Hn & Hp & Hq).
    rewrite Ha, Hr, Hs, Hsr, Hn, Hp, Hq.
    unfold on_strategy_create_alert; simpl.
    rewrite insert_insert_eq. unfold active_alert_key at 2 4, alert_key.
    rewrite <- app_assoc. repeat split.
Qed.

(** What the loop of the historical [done] callback does to the page. *)
Lemma fetch_alerts_historical_loop (l : list signal_alert) w :
  let w' :=
    fold_left
      (fun w' alert =>
         let w' := set_alerts
                     (<[s_market_id alert +:+ ":" +:+ Js.number_to_string (s_id alert)
                        := alert]> (alerts w')) w' in
         on_strategy_signal_alert (s_market_id alert) (s_id alert)
           (s_timestamp alert) alert false w')
      l w in
  alerts w'
  = fold_left (fun m a => <[signal_alert_key a := a]> m) l (alerts w) /\
  map sr_key (alert_rows w')
  = (rev (map signal_alert_key l) ++ map sr_key (alert_rows w))%list /\
  active_alerts w' = active_alerts w /\ active_alert_rows w' = active_alert_rows w /\
  notified w' = notified w /\ played w' = played w /\ requested w' = requested w.
Proof.
  revert w. induction l as [|a l IH]; intros w; simpl.
  - repeat split.
  - specialize (IH (on_strategy_signal_alert (s_market_id a) (s_id a)
                      (s_timestamp a) a false
                      (set_alerts
                         (<[s_market_id a +:+ ":" +:+ Js.number_to_string (s_id a)
                            := a]> (alerts w)) w))).
    simpl in IH. destruct IH as (Ha & Hr & Hs & Hsr & Hn & Hp & Hq).
    rewrite Ha, Hr, Hs, Hsr, Hn, Hp, Hq.
    unfold on_strategy_signal_alert; rewrite cleanup_above_200_id; simpl.
    rewrite insert_insert_eq. unfold signal_alert_key at 2 4, alert_key.
    rewrite <- app_assoc. repeat split.
Qed.

(** X6: a loaded snapshot replaces the active collection: what it holds
    afterwards depends on the list alone, a key outside the list is gone,
    and of several alerts with one key the last of the list stays. *)
Theorem fetch_alerts_active_done_replaces format_price l w :
  active_alerts (fetch_alerts_active_done format_price (Some l) w)
  = loaded active_alert_key l /\
  (forall key, ~ In key (map active_alert_key l) ->
     active_alerts (fetch_alerts_active_done format_price (Some l) w) !! key = None) /\
  (forall l1 a l2, l = (l1 ++ a :: l2)%list ->
     ~ In (active_alert_key a) (map active_alert_key l2) ->
     active_alerts (fetch_alerts_active_done format_price (Some l) w)
       !! active_alert_key a = Some a).
Proof.
  unfold fetch_alerts_active_done.
  destruct (fetch_alerts_active_loop format_price l (set_active_alerts ∅ w))
    as (Ha & _). simpl in Ha. rewrite Ha. unfold loaded.
  split; [reflexivity|]. split.
  - intros key Hk. rewrite loaded_lookup_other by exact Hk. apply lookup_empty.
  - intros l1 a l2 -> Hk. apply loaded_lookup_last. exact Hk.
Qed.

(** X7: a loaded list of signals replaces the historical collection: what
    it holds afterwards depends on the list alone, a key outside the list
    is gone, and of several signals with one key the last of the list
    stays. *)
Theorem fetch_alerts_historical_done_replaces l w :
  alerts (fetch_alerts_historical_done (Some l) w) = loaded signal_alert_key l /\
  (forall key, ~ In key (map signal_alert_key l) ->
     alerts (fetch_alerts_historical_done (Some l) w) !! key = None) /\
  (forall l1 a l2, l = (l1 ++ a :: l2)%list ->
     ~ In (signal_alert_key a) (map signal_alert_key l2) ->
     alerts (fetch_alerts_historical_done (Some l) w) !! signal_alert_key a = Some a).
Proof.
  unfold fetch_alerts_historical_done.
  destruct (fetch_alerts_historical_loop l (set_alerts ∅ w)) as (Ha & _).
  simpl in Ha. rewrite Ha. unfold loaded.
  split; [reflexivity|]. split.
  - intros key Hk. rewrite loaded_lookup_other by exact Hk. apply lookup_empty.
  - intros l1 a l2 -> Hk. apply loaded_lookup_last. exact Hk.
Qed.

(** X8: loading is silent: whatever the answer holds, neither [done] callback
    notifies, plays a sound or sends a request, and neither touches the
    collection or the table of the other. *)
Theorem fetch_alerts_done_silent format_price data1 data2 w :
  (notified (fetch_alerts_active_done format_price data1 w) = notified w /\
   played (fetch_alerts_active_done format_price data1 w) = played w /\
   requested (fetch_alerts_active_done format_price data1 w) = requested w /\
   alerts (fetch_alerts_active_done format_price data1 w) = alerts w /\
   alert_rows (fetch_alerts_active_done format_price data1 w) = alert_rows w) /\
  (notified (fetch_alerts_historical_done data2 w) = notified w /\
   played (fetch_alerts_historical_done data2 w) = played w /\
   requested (fetch_alerts_historical_done data2 w) = requested w /\
   active_alerts (fetch_alerts_historical_done data2 w) = active_alerts w /\
   active_alert_rows (fetch_alerts_historical_done data2 w) = active_alert_rows w).
Proof.
  split.
  - unfold fetch_alerts_active_done. destruct data1 as [l|]; [|repeat split].
    destruct (fetch_alerts_active_loop format_price l (set_active_alerts ∅ w))
      as (_ & _ & Hs & Hsr & Hn & Hp & Hq).
    simpl in *. rewrite Hs, Hsr, Hn, Hp, Hq. repeat split.
  - unfold fetch_alerts_historical_done. destruct data2 as [l|]; [|repeat split].
    destruct (fetch_alerts_historical_loop l (set_alerts ∅ w))
      as (_ & _ & Hs & Hsr & Hn & Hp & Hq).
    simpl in *. rewrite Hs, Hsr, Hn, Hp, Hq. repeat split.
Qed.

(** X9: loading does not clear the tables: each loaded alert gets a new row on
    top, the last of the list first, and the rows that were there stay
    below, also those of alerts the collection no longer holds. *)
Theorem fetch_alerts_done_rows format_price l1 l2 w :
  map ar_key (active_alert_rows (fetch_alerts_active_done format_price (Some l1) w))
  = (rev (map active_alert_key l1) ++ map ar_key (active_alert_rows w))%list /\
  map sr_key (alert_rows (fetch_alerts_historical_done (Some l2) w))
  = (rev (map signal_alert_key l2) ++ map sr_key (alert_rows w))%list.
Proof.
  split.
  - unfold fetch_alerts_active_done.
    destruct (fetch_alerts_active_loop format_price l1 (set_active_alerts ∅ w))
      as (_ & Hr & _). exact Hr.
  - unfold fetch_alerts_historical_done.
    destruct (fetch_alerts_historical_loop l2 (set_alerts ∅ w)) as (_ & Hr & _).
    exact Hr.
Qed.

(** ** Rows and entries *)

Lemma rows_cover_create format_price market_id alert_id timestamp alert do_notify w m :
  (forall key, is_Some (m !! key) -> key = alert_key market_id alert_id \/
                                     In key (map ar_key (active_alert_rows w))) ->
  rows_cover (on_strategy_create_alert format_price market_id alert_id timestamp
                alert do_notify (set_active_alerts m w)).
Proof.
  intros H key. rewrite on_strategy_create_alert_active_alerts.
  fold (alert_key market_id alert_id). intros Hk.
  assert (Hrows : map ar_key
            (active_alert_rows
               (on_strategy_create_alert format_price market_id alert_id timestamp
                  alert do_notify (set_active_alerts m w)))
          = alert_key market_id alert_id :: map ar_key (active_alert_rows w)).
  { unfold on_strategy_create_alert. destruct do_notify; reflexivity. }
  rewrite Hrows. simpl.
  apply lookup_insert_is_Some in Hk as [Hk | [_ Hk]]; [left; exact Hk|].
  simpl in Hk. destruct (H key Hk); [left; congruence | right; assumption].
Qed.

(** X10: the push handlers keep every alert of the active collection on a
    row of the table; for the removed event this is said of the keys that
    are plain in a selector, where its outcome is followed. *)
Theorem rows_cover_preserved format_price market_id alert_id timestamp alert
    signal do_notify w :
  rows_cover w ->
  rows_cover (on_strategy_create_alert format_price market_id alert_id timestamp
                alert do_notify w) /\
  (forall w', on_strategy_remove_alert market_id timestamp alert_id w = Some w' ->
              rows_cover w') /\
  rows_cover (on_strategy_signal_alert market_id alert_id timestamp signal
                do_notify w).
Proof.
  intros H. split; [|split].
  - replace w with (set_active_alerts (active_alerts w) w) at 1
      by (destruct w; reflexivity).
    apply rows_cover_create. intros key Hk. right. apply H, Hk.
  - intros w'. unfold on_strategy_remove_alert.
    fold (alert_key market_id alert_id).
    destruct (Js.plain_in_selector (alert_key market_id alert_id)); [|discriminate].
    intros E. injection E as <-. intros key. simpl. intros Hk.
    apply lookup_delete_is_Some in Hk as [Hne Hk].
    apply H in Hk. apply in_map_iff in Hk as (r & Hr & Hin).
    apply in_map_iff. exists r. split; [exact Hr|].
    apply filter_In. split; [exact Hin|].
    destruct (String.eqb_spec (ar_key r) (alert_key market_id alert_id));
      [congruence|reflexivity].
  - intros key. unfold on_strategy_signal_alert. rewrite cleanup_above_200_id.
    destruct do_notify; simpl; apply H.
Qed.

Lemma rows_cover_preserved_two_alerts :
  rows_cover
    (on_strategy_create_alert two_decimals "EURUSD" 2 0%float (sample_alert 2 1 None)
       true
       (on_strategy_create_alert two_decimals "EURUSD" 1 0%float
          (sample_alert 1 1 None) true fresh_window)) /\
  (forall w',
     on_strategy_remove_alert "EURUSD" 0%float 2
       (on_strategy_create_alert two_decimals "EURUSD" 1 0%float
          (sample_alert 1 1 None) true fresh_window) = Some w' ->
     rows_cover w').
Proof.
  assert (H0 : rows_cover
                 (on_strategy_create_alert two_decimals "EURUSD" 1 0%float
                    (sample_alert 1 1 None) true fresh_window)).
  { apply (rows_cover_create two_decimals "EURUSD" 1 0%float (sample_alert 1 1 None)
             true fresh_window ∅).
    intros key [a Ha]. rewrite lookup_empty in Ha. discriminate. }
  destruct (rows_cover_preserved two_decimals "EURUSD" 2 0%float
              (sample_alert 2 1 None) (sample_signal 2) true _ H0)
    as (H1 & H2 & _).
  split; [exact H1|exact H2].
Defined.

(** X11: after a snapshot is loaded every alert of the active collection has a
    row, whatever the page looked like before. *)
Theorem rows_cover_after_fetch format_price data w :
  rows_cover (fetch_alerts_active_done format_price data w).
Proof.
  unfold fetch_alerts_active_done. destruct data as [l|].
  - destruct (fetch_alerts_active_loop format_price l (set_active_alerts ∅ w))
      as (Ha & Hr & _).
    intros key Hk. cbv zeta in *. rewrite Hr. rewrite Ha in Hk. simpl in Hk.
    apply in_or_app. left. apply in_rev. rewrite rev_involutive.
    destruct (in_dec string_dec key (map active_alert_key l)) as [Hin|Hnot];
      [exact Hin|].
    rewrite loaded_lookup_other, lookup_empty in Hk by exact Hnot.
    destruct Hk as [a Hk]. discriminate.
  - intros key [a Ha]. simpl in Ha. rewrite lookup_empty in Ha. discriminate.
Qed.

(** ** What a push event shows *)

(** X12: a created event leaves the historical collection, its table, the
    sounds and the requests alone; it notifies once when asked to, with
    the condition text of the row it has just added, and not at all when
    the load of a snapshot calls it. *)
Theorem on_strategy_create_alert_effects format_price market_id alert_id timestamp
    alert do_notify w :
  let w1 := on_strategy_create_alert format_price market_id alert_id timestamp
              alert do_notify w in
  exists row,
    active_alert_rows w1 = row :: active_alert_rows w /\
    ar_key row = alert_key market_id alert_id /\
    notified w1
    = (notified w ++
       if do_notify
       then [ {| n_message := a_name alert +:+ " " +:+ ar_condition row +:+ " "
                                +:+ a_symbol alert +:+ " " +:+ a_message alert;
                 n_title := "Strategy Alert Created"; n_type := "info" |} ]
       else [])%list /\
    alerts w1 = alerts w /\ alert_rows w1 = alert_rows w /\
    played w1 = played w /\ requested w1 = requested w /\ markets w1 = markets w.
Proof.
  intros w1. subst w1. unfold on_strategy_create_alert.
  destruct do_notify; simpl; eexists; repeat split.
  rewrite app_nil_r. reflexivity.
Qed.

(** X13: a fired signal leaves the active collection, its table and the
    requests alone; when asked to notify it notifies once and plays the
    "alert" sound once, and it does neither when a snapshot is loaded. *)
Theorem on_strategy_signal_alert_effects market_id alert_id timestamp alert
    do_notify w :
  let w1 := on_strategy_signal_alert market_id alert_id timestamp alert do_notify w in
  exists row,
    alert_rows w1 = row :: alert_rows w /\
    sr_key row = alert_key market_id (s_id alert) /\
    notified w1
    = (notified w ++
       if do_notify
       then [ {| n_message := s_name alert +:+ " " +:+ s_reason alert +:+ " "
                                +:+ s_symbol alert +:+ " " +:+ s_message alert;
                 n_title := "Strategy Alert"; n_type := "info" |} ]
       else [])%list /\
    played w1 = (played w ++ if do_notify then ["alert"] else [])%list /\
    active_alerts w1 = active_alerts w /\
    active_alert_rows w1 = active_alert_rows w /\
    requested w1 = requested w /\ markets w1 = markets w.
Proof.
  intros w1. subst w1. unfold on_strategy_signal_alert.
  rewrite cleanup_above_200_id.
  destruct do_notify; simpl; eexists; repeat split; rewrite app_nil_r; reflexivity.
Qed.

(** ** The details dialog *)

Lemma contains_colon_alert_key market_id alert_id :
  contains ":" (alert_key market_id alert_id) = true.
Proof. apply contains_app. Qed.

(** A key with a colon is none of the names every object inherits. *)
Lemma get_absent_colon_key {V} (o : gmap string V) key :
  contains ":" key = true -> o !! key = None -> Js.get o key = Js.Undefined.
Proof.
  intros Hc Hk. unfold Js.get. rewrite Hk.
  unfold Js.object_prototype_keys. simpl.
  repeat match goal with
         | |- context [String.eqb key ?k] =>
             destruct (String.eqb_spec key k) as [->|_]; [discriminate Hc|]
         end.
  reflexivity.
Qed.

(** X14: the details of an alert are there once it is created: the cell
    of its price is built from the price formatted for the market the alert
    itself names, the cell of its comment from its message, or from "-"
    when that is empty, each pasted as it is into the HTML of the cell. Once
    the removed event has run, for a key that is plain in a selector, the
    dialog finds nothing. *)
Theorem on_details_alert_follows_collection format_price number_toString market_id
    alert_id timestamp alert do_notify w :
  (exists details,
     on_details_alert format_price number_toString (alert_key market_id alert_id)
       (on_strategy_create_alert format_price market_id alert_id timestamp alert
          do_notify w) = Details details /\
     dt_price_cell details
     = data_value (format_price (a_market_id alert) (a_price alert)) /\
     dt_comment_cell details
     = data_value (if Js.truthy_string (a_message alert)
                   then a_message alert else "-")) /\
  (forall w',
     on_strategy_remove_alert market_id timestamp alert_id w = Some w' ->
     on_details_alert format_price number_toString (alert_key market_id alert_id) w'
     = NoDetails).
Proof.
  split.
  - unfold on_details_alert, Js.get.
    rewrite on_strategy_create_alert_active_alerts.
    fold (alert_key market_id alert_id). rewrite lookup_insert_eq.
    eexists. repeat split.
  - intros w'. unfold on_strategy_remove_alert.
    fold (alert_key market_id alert_id).
    destruct (Js.plain_in_selector (alert_key market_id alert_id)); [|discriminate].
    intros E. injection E as <-. unfold on_details_alert.
    rewrite get_absent_colon_key; [reflexivity|apply contains_colon_alert_key|].
    simpl. apply lookup_delete_eq.
Qed.

Lemma on_details_alert_follows_collection_EURUSD_1 :
  exists w',
    on_strategy_remove_alert "EURUSD" 0%float 1
      (on_strategy_create_alert two_decimals "EURUSD" 1 0%float
         (sample_alert 1 1 None) true fresh_window) = Some w' /\
    on_details_alert two_decimals (fun _ => "") (alert_key "EURUSD" 1) w'
    = NoDetails.
Proof.
  eexists. split; [reflexivity|].
  apply (proj2 (on_details_alert_follows_collection two_decimals (fun _ => "")
                  "EURUSD" 1 0%float (sample_alert 1 1 None) true
                  (on_strategy_create_alert two_decimals "EURUSD" 1 0%float
                     (sample_alert 1 1 None) true fresh_window))).
  reflexivity.
Defined.

(** X15: in a browser the details never name the price source: the row of a
    rising price-cross alert says "if bid price goes above ..." (or ask,
    or mid), its details say "if  price goes above ...", because the
    dialog takes the source from the global [alert]. *)
Theorem on_details_alert_has_no_price_source format_price number_toString market_id
    alert_id timestamp alert do_notify w :
  window_alert w = builtin_alert ->
  a_name alert = "price-cross" ->
  0 < a_direction alert ->
  exists row details,
    head (active_alert_rows
            (on_strategy_create_alert format_price market_id alert_id timestamp
               alert do_notify w)) = Some row /\
    on_details_alert format_price number_toString (ar_key row)
      (on_strategy_create_alert format_price market_id alert_id timestamp alert
         do_notify w) = Details details /\
    ar_condition row
    = "if " +:+ price_src_to_str (Some (a_price_src alert)) +:+ " price goes above "
        +:+ format_price market_id (a_price alert) /\
    dt_condition details
    = "if " +:+ "" +:+ " price goes above "
        +:+ format_price (a_market_id alert) (a_price alert).
Proof.
  intros Hg Hn Hd.
  set (w1 := on_strategy_create_alert format_price market_id alert_id timestamp
               alert do_notify w).
  assert (Hrow : exists row, head (active_alert_rows w1) = Some row /\
            ar_key row = alert_key market_id alert_id /\
            ar_condition row
            = alert_name_format format_price (window_alert w) alert market_id
                (price_src_to_str (Some (a_price_src alert)))).
  { unfold w1, on_strategy_create_alert. destruct do_notify; simpl; eauto. }
  destruct Hrow as (row & Hhead & Hkey & Hcond).
  assert (Hw : window_alert w1 = builtin_alert).
  { unfold w1, on_strategy_create_alert. destruct do_notify; exact Hg. }
  assert (Hl : active_alerts w1 !! alert_key market_id alert_id = Some alert).
  { unfold w1. rewrite on_strategy_create_alert_active_alerts.
    apply lookup_insert_eq. }
  exists row. unfold on_details_alert, Js.get. rewrite Hkey, Hl, Hw.
  eexists. split; [exact Hhead|]. split; [reflexivity|].
  split.
  - rewrite Hcond. apply alert_name_format_long; assumption.
  - simpl.
    apply (alert_name_format_long format_price builtin_alert alert
             (a_market_id alert) ""); assumption.
Qed.

Lemma on_details_alert_has_no_price_source_sample :
  exists row details,
    head (active_alert_rows
            (on_strategy_create_alert two_decimals "EURUSD" 1 0%float
               (sample_alert 1 1 None) true fresh_window)) = Some row /\
    on_details_alert two_decimals (fun _ => "") (ar_key row)
      (on_strategy_create_alert two_decimals "EURUSD" 1 0%float
         (sample_alert 1 1 None) true fresh_window) = Details details /\
    ar_condition row = "if bid price goes above 100.00" /\
    dt_condition details = "if  price goes above 100.00".
Proof.
  apply (on_details_alert_has_no_price_source two_decimals (fun _ => "") "EURUSD" 1
           0%float (sample_alert 1 1 None) true fresh_window).
  - reflexivity.
  - reflexivity.
  - simpl. lia.
Defined.

(** ** A removal that fails *)

(** X16: a removal request that fails notifies one error per entry of the
    [messages] list of the failure, with the index of the entry as its
    text; a failure without such a list, as jQuery reports them, leaves
    the page as it was. *)
Theorem on_remove_alert_fail_notifies data w :
  notified (on_remove_alert_fail data w)
  = (notified w ++
     map (fun msg : nat =>
            {| n_message := Js.number_to_string (Z.of_nat msg);
               n_title := "Remove Alert"; n_type := "error" |})
         (seq 0 (length (x_messages data))))%list /\
  (x_messages data = [] -> on_remove_alert_fail data w = w).
Proof.
  split.
  - apply (notify_each
             (fun msg : nat =>
                {| n_message := Js.number_to_string (Z.of_nat msg);
                   n_title := "Remove Alert"; n_type := "error" |})).
  - intros H. unfold on_remove_alert_fail. rewrite H. reflexivity.
Qed.
